(** * OpenLoad API client ([openload/openload.py]): a shallow embedding

    The client is a thin wrapper around [requests]: every public method
    builds a parameter dictionary, hands it to [_get], and [_get] merges the
    credentials in, performs the HTTP GET and unwraps the JSON envelope.
    The embedding follows the Python text method by method.  Python values
    are a small tagged union, dictionaries are finite maps over strings,
    exceptions are the left summand of the result, and everything the
    client does to the outside (HTTP calls, opening a file, subscripting a
    decoded response) is recorded in a trace carried by the state. *)

From stdpp Require Import gmap strings list fin_maps.
From Stdlib Require Import ZArith.

Open Scope string_scope.
Open Scope list_scope.
Open Scope Z_scope.

(** ** Python values *)

(** The values that [json()] can decode and that callers pass as arguments.
    Floating-point numbers are left out. *)
#[local] Set Warnings "-register-all,-clear-no-such-hyp".
Inductive pyval : Type :=
  | PyNone
  | PyBool (b : bool)
  | PyInt (n : Z)
  | PyStr (s : string)
  | PyList (l : list pyval)
  | PyDict (d : gmap string pyval).

(** Python truthiness, as used by [if value], [if not params] and
    [if captcha_response]. *)
Definition truthy (v : pyval) : bool :=
  match v with
  | PyNone => false
  | PyBool b => b
  | PyInt n => negb (n =? 0)
  | PyStr s => negb (String.eqb s EmptyString)
  | PyList l => match l with [] => false | _ :: _ => true end
  | PyDict d => negb (bool_decide (dom d = ∅))
  end.

(** [v == n] for an integer literal [n].  [bool] is a subclass of [int];
    every other kind of value is simply unequal to an integer. *)
Definition py_eq_int (v : pyval) (n : Z) : bool :=
  match v with
  | PyInt m => m =? n
  | PyBool b => Z.b2z b =? n
  | _ => false
  end.

(** ** Exceptions *)

(** Modelled from the spec: the module [api_exceptions], from which the six
    API error classes are imported, is not part of the sources.  Each class
    is one error kind that carries the message it was raised with.  The
    remaining constructors are Python's own exceptions and whatever the
    transport raises. *)
Inductive exn : Type :=
  | BadRequestException (msg : pyval)
  | PermissionDeniedException (msg : pyval)
  | FileNotFoundException (msg : pyval)
  | UnavailableForLegalReasonsException (msg : pyval)
  | BandwidthUsageExceeded (msg : pyval)
  | ServerErrorException (msg : pyval)
  | KeyError (key : string)
  | TypeError
  | AttributeError
  | NotImplementedError
  | IOError
  | ValueError
  | RequestException (detail : string).

(** [v >= n] for an integer literal [n]; Python 3 refuses to order an
    integer against [None], a string, a list or a dict. *)
Definition py_ge_int (v : pyval) (n : Z) : exn + bool :=
  match v with
  | PyInt m => inr (n <=? m)
  | PyBool b => inr (n <=? Z.b2z b)
  | _ => inl TypeError
  end.

(** ** The outside world *)

Inductive event : Type :=
  | EvGet (url : string) (params : gmap string pyval)
  | EvOpen (path : string) (fd : nat)
  | EvPost (url : pyval) (fd : nat)
  | EvItem (key : string).

(** [trace] is the history, oldest event first.  [open_files] are the
    descriptors that the program has opened and not closed.  What the
    garbage collector does to a file object that is no longer referenced
    is not part of the model. *)
Record world : Type := World {
  trace : list event;
  open_files : list nat;
  next_fd : nat
}.

(** What the environment answers.  An answer may depend on everything that
    happened before.  [requests_get] and [requests_post] stand for
    [requests.get(..).json()] and [requests.post(..).json()]: the decoded
    body, or the exception raised by the transport or the decoder. *)
Record env : Type := Env {
  requests_get : list event -> string -> gmap string pyval -> exn + pyval;
  requests_post : list event -> pyval -> nat -> exn + pyval;
  fs_open : list event -> string -> bool
}.

(** ** State and exception monad *)

Definition M (A : Type) : Type := world -> world * (exn + A).

Definition ret {A} (a : A) : M A := fun w => (w, inr a).
Definition raise {A} (e : exn) : M A := fun w => (w, inl e).
Definition bind {A B} (m : M A) (k : A -> M B) : M B :=
  fun w =>
    match m w with
    | (w', inr a) => k a w'
    | (w', inl e) => (w', inl e)
    end.
Definition lift {A} (r : exn + A) : M A := fun w => (w, r).

Declare Scope py_scope.
Delimit Scope py_scope with py.
Notation "x <- m ;; k" := (bind m (fun x => k))
  (at level 100, m at next level, right associativity) : py_scope.
Notation "m ;;; k" := (bind m (fun _ => k))
  (at level 100, right associativity) : py_scope.
Open Scope py_scope.

Definition log (e : event) (w : world) : world :=
  World (trace w ++ [e]) (open_files w) (next_fd w).

(** The world after [path] has been opened: a fresh descriptor joins the
    open ones. *)
Definition file_opened (path : string) (w : world) : world :=
  World (trace w ++ [EvOpen path (next_fd w)])
        (open_files w ++ [next_fd w]) (S (next_fd w)).

(** Whether a path holds a NUL character. *)
Fixpoint has_nul (path : string) : bool :=
  match path with
  | EmptyString => false
  | String c rest => Ascii.eqb c Ascii.zero || has_nul rest
  end.

Definition emit (e : event) : M unit := fun w => (log e w, inr tt).

(** [obj[key]] on a decoded body with a string key. *)
Definition subscript (obj : pyval) (key : string) : exn + pyval :=
  match obj with
  | PyDict d =>
      match d !! key with
      | Some v => inr v
      | None => inl (KeyError key)
      end
  | _ => inl TypeError
  end.

Definition getitem (obj : pyval) (key : string) : M pyval :=
  emit (EvItem key) ;;; lift (subscript obj key).

(** [d.update(other)]: the entries of [other] win. *)
Definition dict_update (d other : gmap string pyval) : gmap string pyval :=
  other ∪ d.

(** ** The class [OpenLoad] *)

Definition api_base_url : string := "https://api.openload.co/{api_version}/".
Definition api_version : string := "1".

(** [template.format(api_version=value)] for a template whose only
    replacement field is [{api_version}]. *)
Fixpoint format_field (skip : nat) (field value template : string) : string :=
  match template with
  | EmptyString => EmptyString
  | String c rest =>
      match skip with
      | S n => format_field n field value rest
      | O =>
          if String.prefix field template
          then (value ++ format_field (String.length field - 1) field value rest)%string
          else String c (format_field 0 field value rest)
      end
  end.

Record OpenLoad : Type := {
  login : pyval;
  key : pyval;
  api_url : string
}.

Definition __init__ (api_login api_key : pyval) : OpenLoad :=
  {| login := api_login;
     key := api_key;
     api_url := format_field 0 "{api_version}" api_version api_base_url |}.

Section Client.

Variable E : env.

Definition http_get (url : string) (params : gmap string pyval) : M pyval :=
  fun w => (log (EvGet url params) w, requests_get E (trace w) url params).

Definition http_post (url : pyval) (fd : nat) : M pyval :=
  fun w => (log (EvPost url fd) w, requests_post E (trace w) url fd).

(** [open(file_path, 'rb')].  [fs_open] says whether the file opens.  A
    failed [open] raises [ValueError] when the path holds a NUL character,
    which Python refuses before it asks the file system, and otherwise an
    [OSError], of which [IOError] is the name in Python 3. *)
Definition py_open (path : string) : M nat :=
  fun w =>
    if fs_open E (trace w) path
    then (file_opened path w, inr (next_fd w))
    else (w, inl (if has_nul path then ValueError else IOError)).

Definition _check_status (response_json : pyval) : M unit :=
  status <- getitem response_json "status" ;;
  msg <- getitem response_json "msg" ;;
  if py_eq_int status 400 then raise (BadRequestException msg)
  else if py_eq_int status 403 then raise (PermissionDeniedException msg)
  else if py_eq_int status 404 then raise (FileNotFoundException msg)
  else if py_eq_int status 451 then raise (UnavailableForLegalReasonsException msg)
  else if py_eq_int status 509 then raise (BandwidthUsageExceeded msg)
  else
    ge <- lift (py_ge_int status 500) ;;
    if ge then raise (ServerErrorException msg) else ret tt.

Definition _process_response (response_json : pyval) : M pyval :=
  _check_status response_json ;;;
  getitem response_json "result".

(** The literal [{'login': self.login, 'key': self.key}]. *)
Definition credentials (self : OpenLoad) : gmap string pyval :=
  <["key" := key self]> (<["login" := login self]> ∅).

(** [params] is [None] when the caller leaves it out.  A truthy value that
    is not a dictionary has no [update]. *)
Definition _get (self : OpenLoad) (url : string) (params : pyval) : M pyval :=
  params <- (if negb (truthy params) then ret ∅
             else match params with
                  | PyDict d => ret d
                  | _ => raise AttributeError
                  end) ;;
  let params := dict_update params (credentials self) in
  response_json <- http_get (api_url self ++ url)%string params ;;
  _process_response response_json.

Definition account_info (self : OpenLoad) : M pyval :=
  _get self "account/info" PyNone.

Definition prepare_download (self : OpenLoad) (file_id : pyval) : M pyval :=
  _get self "file/dlticket" (PyDict {[ "file" := file_id ]}).

(** [captcha_response] defaults to [None]. *)
Definition get_download_link (self : OpenLoad)
    (file_id ticket captcha_response : pyval) : M pyval :=
  let params := <["file" := file_id]> {[ "ticket" := ticket ]} in
  let params :=
    if truthy captcha_response
    then <["captcha_response" := captcha_response]> params
    else params in
  _get self "file/dl" (PyDict params).

Definition file_info (self : OpenLoad) (file_id : pyval) : M pyval :=
  _get self "file/info" (PyDict {[ "file" := file_id ]}).

(** [{key: value for key, value in kwargs.items() if value}] *)
Definition kwargs_filter (kwargs : gmap string pyval) : gmap string pyval :=
  filter (fun kv => truthy kv.2 = true) kwargs.

(** [kwargs] is the dictionary collected by [**kwargs].  Python never
    collects a keyword that names a declared parameter ([self] here,
    [file_path] and [remote_url] below): such a call raises [TypeError]
    before the body runs.  See [collectable]. *)
Definition upload_link (self : OpenLoad) (kwargs : gmap string pyval) : M pyval :=
  let params := kwargs_filter kwargs in
  _get self "file/ul" (PyDict params).

(** The arguments of [requests.post] are evaluated left to right, so the
    file is opened before the request is made. *)
Definition upload_file (self : OpenLoad) (file_path : string)
    (kwargs : gmap string pyval) : M pyval :=
  upload_url_response_json <- upload_link self kwargs ;;
  upload_url <- getitem upload_url_response_json "url" ;;
  fd <- py_open file_path ;;
  response_json <- http_post upload_url fd ;;
  _check_status response_json ;;;
  getitem response_json "result".

Definition remote_upload (self : OpenLoad) (remote_url : pyval)
    (kwargs : gmap string pyval) : M pyval :=
  let params := {[ "url" := remote_url ]} in
  let params := dict_update params (kwargs_filter kwargs) in
  _get self "remotedl/add" (PyDict params).

Definition remote_upload_status (self : OpenLoad)
    (kwargs : gmap string pyval) : M pyval :=
  let params := kwargs_filter kwargs in
  _get self "remotedl/status" (PyDict params).

(** [folder_id] defaults to [None]. *)
Definition list_folder (self : OpenLoad) (folder_id : pyval) : M pyval :=
  let params := if truthy folder_id then {[ "folder" := folder_id ]} else ∅ in
  _get self "file/listfolder" (PyDict params).

Definition convert_file (self : OpenLoad) (file_id : pyval) : M pyval :=
  _get self "file/convert" (PyDict {[ "file" := file_id ]}).

(** [folder_id] defaults to [None]. *)
Definition running_conversions (self : OpenLoad) (folder_id : pyval) : M pyval :=
  let params := if truthy folder_id then {[ "folder" := folder_id ]} else ∅ in
  _get self "file/runningconverts" (PyDict params).

Definition failed_conversions (self : OpenLoad) : M pyval :=
  raise NotImplementedError.

Definition splash_image (self : OpenLoad) (file_id : pyval) : M pyval :=
  _get self "file/getsplash" (PyDict {[ "file" := file_id ]}).

(** The public operations, as one type of calls. *)
Inductive operation : Type :=
  | Account_info
  | Prepare_download (file_id : pyval)
  | Get_download_link (file_id ticket captcha_response : pyval)
  | File_info (file_id : pyval)
  | Upload_link (kwargs : gmap string pyval)
  | Upload_file (file_path : string) (kwargs : gmap string pyval)
  | Remote_upload (remote_url : pyval) (kwargs : gmap string pyval)
  | Remote_upload_status (kwargs : gmap string pyval)
  | List_folder (folder_id : pyval)
  | Convert_file (file_id : pyval)
  | Running_conversions (folder_id : pyval)
  | Failed_conversions
  | Splash_image (file_id : pyval).

Definition call (self : OpenLoad) (op : operation) : M pyval :=
  match op with
  | Account_info => account_info self
  | Prepare_download file_id => prepare_download self file_id
  | Get_download_link file_id ticket captcha_response =>
      get_download_link self file_id ticket captcha_response
  | File_info file_id => file_info self file_id
  | Upload_link kwargs => upload_link self kwargs
  | Upload_file file_path kwargs => upload_file self file_path kwargs
  | Remote_upload remote_url kwargs => remote_upload self remote_url kwargs
  | Remote_upload_status kwargs => remote_upload_status self kwargs
  | List_folder folder_id => list_folder self folder_id
  | Convert_file file_id => convert_file self file_id
  | Running_conversions folder_id => running_conversions self folder_id
  | Failed_conversions => failed_conversions self
  | Splash_image file_id => splash_image self file_id
  end.

End Client.

(** The part of [upload_file] that runs once [upload_link] has returned
    [upload_url_response_json]. *)
Definition after_upload_link (E : env) (file_path : string)
    (upload_url_response_json : pyval) : M pyval :=
  upload_url <- getitem upload_url_response_json "url" ;;
  fd <- py_open E file_path ;;
  response_json <- http_post E upload_url fd ;;
  _process_response response_json.

(** ** Observations on a run *)

(** The events a computation adds to the history it starts from. *)
Definition new_events {A} (m : M A) (w : world) : list event :=
  drop (length (trace w)) (trace (m w).1).

(** The query parameters of the GET requests in a piece of history. *)
Definition sent_params (t : list event) : list (gmap string pyval) :=
  omap (fun e => match e with EvGet _ q => Some q | _ => None end) t.

(** The keys subscripted on decoded bodies in a piece of history. *)
Definition items_read (t : list event) : list string :=
  omap (fun e => match e with EvItem k => Some k | _ => None end) t.

(** The descriptors handed to POST requests in a piece of history. *)
Definition posted (t : list event) : list nat :=
  omap (fun e => match e with EvPost _ fd => Some fd | _ => None end) t.

(** The descriptors opened in a piece of history. *)
Definition opened (t : list event) : list nat :=
  omap (fun e => match e with EvOpen _ fd => Some fd | _ => None end) t.

Definition sent {A} (m : M A) (w : world) : list (gmap string pyval) :=
  sent_params (new_events m w).

Definition query_keys {A} (m : M A) (w : world) : list (gset string) :=
  dom <$> sent m w.

(** The world after the keys [ks] of a body have been subscripted. *)
Definition log_items (ks : list string) (w : world) : world :=
  World (trace w ++ (EvItem <$> ks)) (open_files w) (next_fd w).

(** The status table of the specification: which error kind a status calls
    for. *)
Inductive error_kind_of : Z -> (pyval -> exn) -> Prop :=
  | kind_400 : error_kind_of 400 BadRequestException
  | kind_403 : error_kind_of 403 PermissionDeniedException
  | kind_404 : error_kind_of 404 FileNotFoundException
  | kind_451 : error_kind_of 451 UnavailableForLegalReasonsException
  | kind_509 : error_kind_of 509 BandwidthUsageExceeded
  | kind_5xx s : 500 <= s -> s <> 509 -> error_kind_of s ServerErrorException.

(** A status outside the table and different from 200. *)
Definition unclassified (s : Z) : Prop :=
  s <> 200 /\ s <> 400 /\ s <> 403 /\ s <> 404 /\ s <> 451 /\ s <> 509 /\ s < 500.

(** ** Optional arguments *)

(** An optional argument that is passed by position: [name] is the query
    key it is sent under, [op v] the call with the argument set to [v], and
    [op PyNone] the call that leaves it out.  A value is empty when it is
    not truthy. *)
Definition omits_empty_argument (name : string) (op : pyval -> M pyval) : Prop :=
  forall w v, truthy v = false ->
    exists q, sent (op v) w = [q] /\ q !! name = None.

Definition argument_adds_key (name : string) (op : pyval -> M pyval) : Prop :=
  forall w v, truthy v = true ->
    exists K K', query_keys (op PyNone) w = [K] /\ query_keys (op v) w = [K'] /\
                 K ⊂ K' /\ K' = {[ name ]} ∪ K.

(** The dictionaries that [**kwargs] can collect in a method whose
    declared parameters are [declared]: those without an entry under a
    declared name. *)
Definition collectable (declared : list string)
    (kwargs : gmap string pyval) : Prop :=
  Forall (fun name => kwargs !! name = None) declared.

(** Optional arguments that are collected by [**kwargs]: [op kwargs] is the
    call.  [reserved] are the query keys that the client sets itself,
    [declared] the names of the declared parameters of the method. *)
Definition omits_empty_keyword (reserved : gset string) (declared : list string)
    (op : gmap string pyval -> M pyval) : Prop :=
  forall w kwargs k,
    collectable declared kwargs -> k ∉ declared -> k ∉ reserved ->
    kwargs !! k = None \/ (exists v, kwargs !! k = Some v /\ truthy v = false) ->
    exists q, sent (op kwargs) w = [q] /\ q !! k = None.

Definition keyword_adds_key (reserved : gset string) (declared : list string)
    (op : gmap string pyval -> M pyval) : Prop :=
  forall w kwargs k v,
    collectable declared kwargs -> k ∉ declared -> k ∉ reserved ->
    kwargs !! k = None -> truthy v = true ->
    exists K K', query_keys (op kwargs) w = [K] /\
                 query_keys (op (<[k := v]> kwargs)) w = [K'] /\
                 K ⊂ K' /\ K' = {[ k ]} ∪ K.

(** ** Release of file handles *)

(** A computation releases what it opens when no descriptor that it opened
    is left unclosed at its end. *)
Definition releases_opened_files {A} (m : M A) : Prop :=
  forall w fd, fd ∈ opened (new_events m w) -> fd ∉ open_files (m w).1.

(** [w'] is reached from [w] by steps that send no GET, that keep every
    descriptor they open and that hand every such descriptor to a POST. *)
Definition extends_quietly (w w' : world) : Prop :=
  exists t, trace w' = trace w ++ t /\ sent_params t = [] /\
            open_files w' = open_files w ++ opened t /\ posted t = opened t.

(** ** Sample inputs *)

Definition w0 : world := World [] [] 0.

Definition me : OpenLoad := __init__ (PyStr "my-login") (PyStr "my-key").

Definition envelope (status : Z) (msg : string) (result : pyval)
  : gmap string pyval :=
  <["status" := PyInt status]> (<["msg" := PyStr msg]> {[ "result" := result ]}).

(** A service that grants an upload URL and accepts the upload. *)
Definition E_ok : env :=
  Env (fun _ _ _ =>
         inr (PyDict (envelope 200 "OK" (PyDict {[ "url" := PyStr "https://up" ]}))))
      (fun _ _ _ => inr (PyDict (envelope 200 "OK" (PyStr "done"))))
      (fun _ _ => true).

(** A service that answers every request with the given body. *)
Definition E_const (body : pyval) : env :=
  Env (fun _ _ _ => inr body) (fun _ _ _ => inr body) (fun _ _ => true).

(** An error response without a [result]. *)
Definition denied : gmap string pyval :=
  <["status" := PyInt 403]> {[ "msg" := PyStr "Permission denied" ]}.

(** A response with a status outside the table and without a [result]. *)
Definition unauthorized : gmap string pyval :=
  <["status" := PyInt 401]> {[ "msg" := PyStr "Unauthorized" ]}.

(** A response with status 200 and a [result], but without a [msg]. *)
Definition no_msg : gmap string pyval :=
  <["status" := PyInt 200]> {[ "result" := PyStr "https://dl/x" ]}.

(** A response without a [status]. *)
Definition no_status : gmap string pyval :=
  <["msg" := PyStr "OK"]> {[ "result" := PyStr "https://dl/x" ]}.

(** A service that cannot be reached. *)
Definition E_down : env :=
  Env (fun _ _ _ => inl (RequestException "connection refused"))
      (fun _ _ _ => inl (RequestException "connection refused"))
      (fun _ _ => true).

(** A service that grants an upload URL and then drops the upload. *)
Definition E_post_down : env :=
  Env (requests_get E_ok)
      (fun _ _ _ => inl (RequestException "connection reset"))
      (fun _ _ => true).

(** A service that grants an upload URL and then refuses the upload. *)
Definition E_post_denied : env :=
  Env (requests_get E_ok) (fun _ _ _ => inr (PyDict denied)) (fun _ _ => true).


(** ** Endpoints *)

(** The relative path that each operation hands to [_get];
    [failed_conversions] requests nothing. *)
Definition endpoint (op : operation) : option string :=
  match op with
  | Account_info => Some "account/info"
  | Prepare_download _ => Some "file/dlticket"
  | Get_download_link _ _ _ => Some "file/dl"
  | File_info _ => Some "file/info"
  | Upload_link _ => Some "file/ul"
  | Upload_file _ _ => Some "file/ul"
  | Remote_upload _ _ => Some "remotedl/add"
  | Remote_upload_status _ => Some "remotedl/status"
  | List_folder _ => Some "file/listfolder"
  | Convert_file _ => Some "file/convert"
  | Running_conversions _ => Some "file/runningconverts"
  | Failed_conversions => None
  | Splash_image _ => Some "file/getsplash"
  end.

(** ** Basic facts *)

Example api_url_me : api_url me = "https://api.openload.co/1/".
Proof. reflexivity. Qed.

Lemma log_items_nil w : log_items [] w = w.
Proof. destruct w; unfold log_items; simpl. by rewrite app_nil_r. Qed.

Lemma log_items_app ks ks' w :
  log_items ks' (log_items ks w) = log_items (ks ++ ks') w.
Proof. unfold log_items; simpl. by rewrite fmap_app, app_assoc. Qed.

Lemma getitem_eq obj k w :
  getitem obj k w = (log_items [k] w, subscript obj k).
Proof. reflexivity. Qed.

Lemma sent_params_app t t' :
  sent_params (t ++ t') = sent_params t ++ sent_params t'.
Proof. apply omap_app. Qed.

Lemma sent_params_items ks : sent_params (EvItem <$> ks) = [].
Proof. induction ks; simpl; auto. Qed.

Lemma items_read_items ks : items_read (EvItem <$> ks) = ks.
Proof. induction ks; simpl; [done | by f_equal]. Qed.

Lemma opened_items ks : opened (EvItem <$> ks) = [].
Proof. induction ks; simpl; auto. Qed.

Lemma new_events_app {A} (m : M A) w t :
  trace (m w).1 = trace w ++ t -> new_events m w = t.
Proof. intros H. unfold new_events. rewrite H. apply drop_app_length. Qed.

Lemma truthy_dict_false (p : gmap string pyval) :
  truthy (PyDict p) = false -> p = ∅.
Proof.
  simpl. intros H. apply negb_false_iff, bool_decide_eq_true in H.
  by apply dom_empty_iff_L.
Qed.

Lemma dict_update_empty (p : gmap string pyval) : dict_update ∅ p = p.
Proof. unfold dict_update. apply (right_id_L ∅ (∪)). Qed.

(** What [_check_status] does to a dictionary that has both keys. *)
Lemma check_status_dict (d : gmap string pyval) status msg w :
  d !! "status" = Some status -> d !! "msg" = Some msg ->
  _check_status (PyDict d) w =
    (if py_eq_int status 400 then raise (BadRequestException msg)
     else if py_eq_int status 403 then raise (PermissionDeniedException msg)
     else if py_eq_int status 404 then raise (FileNotFoundException msg)
     else if py_eq_int status 451
          then raise (UnavailableForLegalReasonsException msg)
     else if py_eq_int status 509 then raise (BandwidthUsageExceeded msg)
     else
       ge <- lift (py_ge_int status 500) ;;
       if ge then raise (ServerErrorException msg) else ret tt)
    (log_items ["status"; "msg"] w).
Proof.
  intros Hs Hm. unfold _check_status, bind at 1.
  rewrite getitem_eq. simpl. rewrite Hs. unfold bind at 1.
  rewrite getitem_eq. simpl. rewrite Hm. by rewrite log_items_app.
Qed.

(** [_check_status] only subscripts the body: it reads [status], then
    [msg] if the first lookup went through, and nothing else. *)
Lemma check_status_world j w :
  exists ks, (ks = ["status"] \/ ks = ["status"; "msg"]) /\
             (_check_status j w).1 = log_items ks w.
Proof.
  unfold _check_status, bind at 1. rewrite getitem_eq.
  destruct (subscript j "status") as [e|status].
  { exists ["status"]. split; [by left | reflexivity]. }
  exists ["status"; "msg"]. split; [by right |].
  unfold bind at 1. rewrite getitem_eq, log_items_app. simpl app.
  destruct (subscript j "msg") as [e|msg]; [reflexivity |].
  repeat (match goal with |- context [if ?b then _ else _] => destruct b end;
          try reflexivity).
  unfold bind, lift. destruct (py_ge_int status 500) as [e|[]]; reflexivity.
Qed.

Lemma process_response_world j w :
  exists ks, (_process_response j w).1 = log_items ks w.
Proof.
  unfold _process_response, bind.
  destruct (check_status_world j w) as (ks & _ & Hw).
  destruct (_check_status j w) as [w' [e|[]]]; simpl in Hw; subst w'.
  - by exists ks.
  - rewrite getitem_eq, log_items_app. by eexists.
Qed.

Lemma py_eq_int_spec s n : py_eq_int (PyInt s) n = bool_decide (s = n).
Proof.
  simpl. destruct (Z.eqb_spec s n).
  - by rewrite bool_decide_eq_true_2.
  - by rewrite bool_decide_eq_false_2.
Qed.

(** The cascade of comparisons in [_check_status], decided on an integer
    status.  Every case leaves the same world behind. *)
Lemma check_status_int (d : gmap string pyval) s msg w :
  d !! "status" = Some (PyInt s) -> d !! "msg" = Some msg ->
  (forall kind, error_kind_of s kind ->
     _check_status (PyDict d) w = (log_items ["status"; "msg"] w, inl (kind msg))) /\
  (s = 200 \/ unclassified s ->
     _check_status (PyDict d) w = (log_items ["status"; "msg"] w, inr tt)).
Proof.
  intros Hs Hm. rewrite (check_status_dict d _ _ w Hs Hm).
  rewrite !py_eq_int_spec. unfold bind, lift, raise, ret, py_ge_int.
  split.
  - intros kind Hk. destruct Hk; repeat case_bool_decide; try lia; try reflexivity.
    destruct (Z.leb_spec 500 s); [reflexivity | lia].
  - intros Hu. unfold unclassified in Hu.
    repeat case_bool_decide; try lia.
    destruct (Z.leb_spec 500 s); [lia | reflexivity].
Qed.

Lemma process_response_raises (d : gmap string pyval) s msg kind w :
  d !! "status" = Some (PyInt s) -> d !! "msg" = Some msg ->
  error_kind_of s kind ->
  _process_response (PyDict d) w = (log_items ["status"; "msg"] w, inl (kind msg)).
Proof.
  intros Hs Hm Hk. unfold _process_response, bind.
  by rewrite (proj1 (check_status_int d s msg w Hs Hm) kind Hk).
Qed.

Lemma process_response_passes (d : gmap string pyval) s msg w :
  d !! "status" = Some (PyInt s) -> d !! "msg" = Some msg ->
  s = 200 \/ unclassified s ->
  _process_response (PyDict d) w =
    (log_items ["status"; "msg"; "result"] w, subscript (PyDict d) "result").
Proof.
  intros Hs Hm Hu. unfold _process_response, bind.
  rewrite (proj2 (check_status_int d s msg w Hs Hm) Hu).
  by rewrite getitem_eq, log_items_app.
Qed.

Section Requests.

Variable E : env.
Variable self : OpenLoad.

(** The query that [_get] sends for the caller's dictionary [p]. *)
Lemma get_dict url (p : gmap string pyval) w :
  _get E self url (PyDict p) w =
    (response_json <-
       http_get E (api_url self ++ url)%string (dict_update p (credentials self)) ;;
     _process_response response_json) w.
Proof.
  unfold _get. destruct (truthy (PyDict p)) eqn:Ht; simpl negb; cbv iota.
  - reflexivity.
  - apply truthy_dict_false in Ht. subst p. reflexivity.
Qed.

(** Leaving [params] out is the same as passing an empty dictionary. *)
Lemma get_none url w : _get E self url PyNone w = _get E self url (PyDict ∅) w.
Proof. reflexivity. Qed.

Lemma get_answered url (p : gmap string pyval) j w :
  requests_get E (trace w) (api_url self ++ url)%string
    (dict_update p (credentials self)) = inr j ->
  _get E self url (PyDict p) w =
    _process_response j
      (log (EvGet (api_url self ++ url)%string (dict_update p (credentials self))) w).
Proof. intros H. rewrite get_dict. unfold bind, http_get. by rewrite H. Qed.

(** [_get] adds one GET and then only subscripts of the body. *)
Lemma get_world url (p : gmap string pyval) w :
  exists ks,
    (_get E self url (PyDict p) w).1 =
      log_items ks
        (log (EvGet (api_url self ++ url)%string (dict_update p (credentials self))) w).
Proof.
  rewrite get_dict. unfold bind, http_get.
  destruct (requests_get E _ _ _) as [e|j].
  - exists []. by rewrite log_items_nil.
  - apply process_response_world.
Qed.

Lemma get_new_events url (p : gmap string pyval) w :
  exists ks,
    new_events (_get E self url (PyDict p)) w =
      EvGet (api_url self ++ url)%string (dict_update p (credentials self))
        :: (EvItem <$> ks).
Proof.
  destruct (get_world url p w) as [ks Hw]. exists ks.
  apply new_events_app. rewrite Hw. simpl. by rewrite <- app_assoc.
Qed.

Lemma get_sent url (p : gmap string pyval) w :
  sent (_get E self url (PyDict p)) w = [dict_update p (credentials self)].
Proof.
  unfold sent. destruct (get_new_events url p w) as [ks ->].
  simpl. by rewrite sent_params_items.
Qed.

End Requests.

(** ** Status classification *)

(** C1.  When the body answered to a request is an envelope whose status is
    400, 403, 404, 451 or 509, or is at least 500 and not 509, the request
    primitive raises the error kind of that status with the envelope's
    [msg] as its message.  The only keys subscripted are [status] and
    [msg]: the [result] field is never read. *)
Theorem classified_status_raises (E : env) (self : OpenLoad) (url : string)
    (p d : gmap string pyval) (s : Z) (msg : pyval) (kind : pyval -> exn)
    (w : world) :
  requests_get E (trace w) (api_url self ++ url)%string
    (dict_update p (credentials self)) = inr (PyDict d) ->
  d !! "status" = Some (PyInt s) ->
  d !! "msg" = Some msg ->
  error_kind_of s kind ->
  _process_response (PyDict d) w =
    (log_items ["status"; "msg"] w, inl (kind msg)) /\
  (_get E self url (PyDict p) w).2 = inl (kind msg) /\
  items_read (new_events (_get E self url (PyDict p)) w) = ["status"; "msg"] /\
  "result" ∉ items_read (new_events (_get E self url (PyDict p)) w).
Proof.
  intros Hget Hs Hm Hk.
  pose proof (process_response_raises d s msg kind) as Hp.
  split; [by apply Hp |].
  assert (Hev : items_read (new_events (_get E self url (PyDict p)) w)
                = ["status"; "msg"]).
  { erewrite new_events_app.
    2:{ rewrite (get_answered E self url p _ w Hget), (Hp _ Hs Hm Hk).
        simpl. rewrite <- app_assoc. reflexivity. }
    reflexivity. }
  split; [| split; [exact Hev |]].
  - rewrite (get_answered E self url p _ w Hget). by rewrite (Hp _ Hs Hm Hk).
  - rewrite Hev, !elem_of_cons, elem_of_nil. intros [?|[?|[]]]; discriminate.
Qed.

(** C2.  When the body answered to a request is an envelope with status 200,
    the request primitive raises nothing and returns the envelope's
    [result] as it is. *)
Theorem status_200_returns_result (E : env) (self : OpenLoad) (url : string)
    (p d : gmap string pyval) (msg result : pyval) (w : world) :
  requests_get E (trace w) (api_url self ++ url)%string
    (dict_update p (credentials self)) = inr (PyDict d) ->
  d !! "status" = Some (PyInt 200) ->
  d !! "msg" = Some msg ->
  d !! "result" = Some result ->
  _process_response (PyDict d) w =
    (log_items ["status"; "msg"; "result"] w, inr result) /\
  (_get E self url (PyDict p) w).2 = inr result.
Proof.
  intros Hget Hs Hm Hr.
  assert (Hp : forall w', _process_response (PyDict d) w' =
                 (log_items ["status"; "msg"; "result"] w', inr result)).
  { intros w'. rewrite (process_response_passes d 200 msg w' Hs Hm); [| by left].
    simpl. by rewrite Hr. }
  split; [apply Hp |].
  rewrite (get_answered E self url p _ w Hget). by rewrite Hp.
Qed.

(** C3, as amended.  When the body answered to a request is an envelope
    with a [msg] whose status is neither 200 nor in the table, no error
    kind of the table is raised and the [result] key is looked up: a
    [result] that is present is handed to the caller as it is, whatever it
    is; an absent one makes the lookup fail with a [KeyError]. *)
Theorem unclassified_status_falls_through (E : env) (self : OpenLoad)
    (url : string) (p d : gmap string pyval) (s : Z) (msg : pyval) (w : world) :
  requests_get E (trace w) (api_url self ++ url)%string
    (dict_update p (credentials self)) = inr (PyDict d) ->
  d !! "status" = Some (PyInt s) ->
  d !! "msg" = Some msg ->
  unclassified s ->
  _check_status (PyDict d) w = (log_items ["status"; "msg"] w, inr tt) /\
  (_get E self url (PyDict p) w).2 =
    match d !! "result" with
    | Some result => inr result
    | None => inl (KeyError "result")
    end.
Proof.
  intros Hget Hs Hm Hu. split.
  - apply (proj2 (check_status_int d s msg w Hs Hm)). by right.
  - rewrite (get_answered E self url p _ w Hget).
    rewrite (process_response_passes d s msg _ Hs Hm); [| by right].
    reflexivity.
Qed.

(** C10.  [_check_status] subscripts [status] and then [msg] before it
    compares anything.  A dictionary without [status] fails on the first
    lookup; one with a [status], whatever its value, and without [msg]
    fails on the second.  In both cases [_process_response] ends in a
    [KeyError] and [result] is not looked up. *)
Theorem missing_status_or_msg_is_key_error (d : gmap string pyval) (w : world) :
  (d !! "status" = None ->
     _process_response (PyDict d) w =
       (log_items ["status"] w, inl (KeyError "status"))) /\
  (forall status, d !! "status" = Some status -> d !! "msg" = None ->
     _process_response (PyDict d) w =
       (log_items ["status"; "msg"] w, inl (KeyError "msg"))).
Proof.
  split.
  - intros Hs. unfold _process_response, _check_status, bind.
    rewrite getitem_eq. simpl. by rewrite Hs.
  - intros status Hs Hm. unfold _process_response, _check_status, bind.
    rewrite !getitem_eq. simpl. rewrite Hs. simpl. rewrite Hm.
    by rewrite log_items_app.
Qed.

(** ** The operation without an implementation *)

(** C8.  [failed_conversions] raises [NotImplementedError] for every client
    and in every state of the world; it returns no value and talks to
    nobody. *)
Theorem failed_conversions_raises (self : OpenLoad) (w : world) :
  failed_conversions self w = (w, inl NotImplementedError) /\
  new_events (failed_conversions self) w = [].
Proof.
  split; [reflexivity |].
  apply new_events_app. simpl. by rewrite app_nil_r.
Qed.

(** ** Credentials *)

Lemma lookup_credentials_login self (p : gmap string pyval) :
  dict_update p (credentials self) !! "login" = Some (login self).
Proof. unfold dict_update, credentials. by apply lookup_union_Some_l. Qed.

Lemma lookup_credentials_key self (p : gmap string pyval) :
  dict_update p (credentials self) !! "key" = Some (key self).
Proof. unfold dict_update, credentials. by apply lookup_union_Some_l. Qed.

Lemma lookup_credentials_other self (p : gmap string pyval) k :
  k <> "login" -> k <> "key" ->
  dict_update p (credentials self) !! k = p !! k.
Proof.
  intros Hl Hk. unfold dict_update, credentials.
  apply lookup_union_r. by rewrite !lookup_insert_ne.
Qed.

Lemma dom_credentials self (p : gmap string pyval) :
  dom (dict_update p (credentials self)) = {[ "login"; "key" ]} ∪ dom p.
Proof.
  unfold dict_update, credentials.
  rewrite dom_union_L, !dom_insert_L, dom_empty_L. set_solver.
Qed.

(** ** The upload hand-off *)

Lemma posted_items ks : posted (EvItem <$> ks) = [].
Proof. induction ks; simpl; auto. Qed.

Lemma opened_app t t' : opened (t ++ t') = opened t ++ opened t'.
Proof. apply omap_app. Qed.

Lemma posted_app t t' : posted (t ++ t') = posted t ++ posted t'.
Proof. apply omap_app. Qed.

Lemma quiet_refl w : extends_quietly w w.
Proof. exists []. simpl. by rewrite !app_nil_r. Qed.

Lemma quiet_trans w1 w2 w3 :
  extends_quietly w1 w2 -> extends_quietly w2 w3 -> extends_quietly w1 w3.
Proof.
  intros (t & Ht & Hs & Ho & Hp) (t' & Ht' & Hs' & Ho' & Hp').
  exists (t ++ t'). rewrite Ht', Ht, Ho', Ho.
  rewrite sent_params_app, opened_app, posted_app, Hs, Hs', Hp, Hp'.
  by rewrite !app_assoc.
Qed.

Lemma quiet_log_items ks w : extends_quietly w (log_items ks w).
Proof.
  exists (EvItem <$> ks). simpl.
  rewrite sent_params_items, opened_items, posted_items.
  by rewrite app_nil_r.
Qed.

Lemma quiet_open_post path u w :
  extends_quietly w (log (EvPost u (next_fd w)) (file_opened path w)).
Proof.
  exists [EvOpen path (next_fd w); EvPost u (next_fd w)]. simpl.
  by rewrite <- app_assoc.
Qed.

Lemma quiet_process_response j w :
  extends_quietly w (_process_response j w).1.
Proof.
  destruct (process_response_world j w) as [ks ->]. apply quiet_log_items.
Qed.

Section Upload.

Variable E : env.
Variable self : OpenLoad.

Lemma upload_file_split path kwargs w :
  upload_file E self path kwargs w =
    match upload_link E self kwargs w with
    | (w1, inr r) => after_upload_link E path r w1
    | (w1, inl e) => (w1, inl e)
    end.
Proof. reflexivity. Qed.

Lemma after_upload_link_quiet path r w :
  extends_quietly w (after_upload_link E path r w).1.
Proof.
  unfold after_upload_link, bind at 1. rewrite getitem_eq.
  eapply quiet_trans; [apply (quiet_log_items ["url"]) |].
  generalize (log_items ["url"] w). clear w. intros w.
  destruct (subscript r "url") as [e|u]; [apply quiet_refl |].
  unfold bind at 1, py_open.
  destruct (fs_open E (trace w) path); [| apply quiet_refl].
  unfold bind at 1, http_post.
  eapply quiet_trans; [apply (quiet_open_post path u) |].
  simpl next_fd. simpl trace.
  destruct (requests_post E _ u (next_fd w)) as [e|resp]; [apply quiet_refl |].
  apply quiet_process_response.
Qed.

(** The whole run: one GET, then a quiet tail. *)
Lemma upload_file_world path kwargs w :
  exists t,
    trace (upload_file E self path kwargs w).1 =
      trace w ++
      EvGet (api_url self ++ "file/ul")%string
            (dict_update (kwargs_filter kwargs) (credentials self)) :: t /\
    sent_params t = [] /\
    open_files (upload_file E self path kwargs w).1 = open_files w ++ opened t /\
    posted t = opened t.
Proof.
  rewrite upload_file_split. unfold upload_link.
  destruct (get_world E self "file/ul" (kwargs_filter kwargs) w) as [ks Hw].
  destruct (_get E self "file/ul" (PyDict (kwargs_filter kwargs)) w)
    as [w1 [e|r]]; simpl in Hw; subst w1.
  - exists (EvItem <$> ks).
    rewrite sent_params_items, opened_items, posted_items, app_nil_r.
    simpl. by rewrite <- app_assoc.
  - destruct (after_upload_link_quiet path r
                (log_items ks (log (EvGet (api_url self ++ "file/ul")%string
                   (dict_update (kwargs_filter kwargs) (credentials self))) w)))
      as (t & Ht & Hs & Ho & Hp).
    exists ((EvItem <$> ks) ++ t).
    rewrite sent_params_app, opened_app, posted_app,
      sent_params_items, opened_items, posted_items.
    rewrite Ht, Ho. simpl. by rewrite <- !app_assoc.
Qed.

Lemma upload_file_run path kwargs w :
  exists t,
    new_events (upload_file E self path kwargs) w =
      EvGet (api_url self ++ "file/ul")%string
            (dict_update (kwargs_filter kwargs) (credentials self)) :: t /\
    sent_params t = [] /\
    open_files (upload_file E self path kwargs w).1 = open_files w ++ opened t /\
    posted t = opened t.
Proof.
  destruct (upload_file_world path kwargs w) as (t & Ht & H).
  exists t. split; [by apply new_events_app | exact H].
Qed.

Lemma upload_file_sent path kwargs w :
  sent (upload_file E self path kwargs) w =
    [dict_update (kwargs_filter kwargs) (credentials self)].
Proof.
  unfold sent. destruct (upload_file_run path kwargs w) as (t & -> & Hs & _).
  simpl. by rewrite Hs.
Qed.

End Upload.

(** C7.  When [upload_link] raises, [upload_file] ends there with the same
    exception and no POST has been made.  When [upload_link] returns, the
    returned object has a [url], the file opens and the POST is answered
    with a body, that body goes through the very [_process_response] that
    every GET goes through: status classification first, then [result]. *)
Theorem upload_file_two_steps (E : env) (self : OpenLoad) (path : string)
    (kwargs : gmap string pyval) (w : world) :
  (forall w1 e,
     upload_link E self kwargs w = (w1, inl e) ->
     upload_file E self path kwargs w = (w1, inl e) /\
     posted (new_events (upload_file E self path kwargs) w) = []) /\
  (forall w1 r u resp,
     upload_link E self kwargs w = (w1, inr r) ->
     subscript r "url" = inr u ->
     fs_open E (trace (log_items ["url"] w1)) path = true ->
     requests_post E (trace (file_opened path (log_items ["url"] w1))) u
       (next_fd w1) = inr resp ->
     upload_file E self path kwargs w =
       _process_response resp
         (log (EvPost u (next_fd w1)) (file_opened path (log_items ["url"] w1)))).
Proof.
  split.
  - intros w1 e Hl.
    assert (Hu : upload_file E self path kwargs w = (w1, inl e))
      by (rewrite upload_file_split; by rewrite Hl).
    split; [exact Hu |].
    destruct (get_new_events E self "file/ul" (kwargs_filter kwargs) w) as [ks Hn].
    unfold new_events in *. rewrite Hu. unfold upload_link in Hl.
    rewrite Hl in Hn. simpl in *. rewrite Hn. simpl. apply posted_items.
  - intros w1 r u resp Hl Hurl Hopen Hpost.
    rewrite upload_file_split, Hl.
    unfold after_upload_link, bind at 1. rewrite getitem_eq, Hurl.
    unfold bind at 1, py_open. rewrite Hopen.
    unfold bind at 1, http_post. simpl next_fd. by rewrite Hpost.
Qed.

(** C9, as amended.  [upload_file] opens the file in the argument list of
    the POST, outside any scope, and has no statement that closes it:
    every descriptor it opens is handed to a POST and has not been closed
    by the program when [upload_file] returns or raises.  The release is
    left to the garbage collector. *)
Theorem upload_file_leaves_file_open (E : env) (self : OpenLoad) (path : string)
    (kwargs : gmap string pyval) (w : world) :
  open_files (upload_file E self path kwargs w).1 =
    open_files w ++ opened (new_events (upload_file E self path kwargs) w) /\
  posted (new_events (upload_file E self path kwargs) w) =
    opened (new_events (upload_file E self path kwargs) w).
Proof.
  destruct (upload_file_run E self path kwargs w) as (t & -> & _ & Ho & Hp).
  simpl. by split.
Qed.

(** ** Parameters of the operations *)

Section Parameters.

Variable E : env.
Variable self : OpenLoad.

Lemma get_none_sent url w :
  sent (_get E self url PyNone) w = [dict_update ∅ (credentials self)].
Proof. unfold sent, new_events. rewrite get_none. apply (get_sent E self url ∅). Qed.

Lemma failed_conversions_silent w : new_events (failed_conversions self) w = [].
Proof. apply new_events_app. simpl. by rewrite app_nil_r. Qed.

Lemma call_sent op w :
  op = Failed_conversions /\ sent (call E self op) w = [] \/
  exists p : gmap string pyval,
    sent (call E self op) w = [dict_update p (credentials self)].
Proof.
  destruct op; simpl call;
    try (right; eexists; apply get_sent);
    try (right; eexists; apply upload_file_sent).
  - right. exists ∅. apply get_none_sent.
  - left. split; [reflexivity |].
    unfold sent. by rewrite failed_conversions_silent.
Qed.

Lemma positional_sent url name (v : pyval) w :
  sent (_get E self url
          (PyDict (if truthy v then {[ name := v ]} else ∅))) w =
    [dict_update (if truthy v then <[name := v]> ∅ else ∅) (credentials self)].
Proof. rewrite get_sent. by destruct (truthy v). Qed.

End Parameters.

(** C4.  For a client built by [__init__ api_login api_key]: whatever
    dictionary the caller hands to [_get], also one that has entries under
    [login] or [key], the GET goes out with [login] and [key] bound to the
    values given at construction and with every other entry of the caller
    untouched; and every GET made by any operation carries the two
    credentials.  ([failed_conversions] makes no request.  The POST of
    [upload_file] has a file body and no query parameters.) *)
Theorem credentials_always_sent (E : env) (api_login api_key : pyval) (w : world) :
  (forall url (p : gmap string pyval),
     exists q,
       sent (_get E (__init__ api_login api_key) url (PyDict p)) w = [q] /\
       q !! "login" = Some api_login /\ q !! "key" = Some api_key /\
       forall k, k <> "login" -> k <> "key" -> q !! k = p !! k) /\
  (forall op,
     op <> Failed_conversions ->
     exists q,
       sent (call E (__init__ api_login api_key) op) w = [q] /\
       q !! "login" = Some api_login /\ q !! "key" = Some api_key).
Proof.
  split.
  - intros url p. eexists. split; [apply get_sent |].
    split; [apply lookup_credentials_login |].
    split; [apply lookup_credentials_key |].
    apply lookup_credentials_other.
  - intros op Hop.
    destruct (call_sent E (__init__ api_login api_key) op w) as [[? _]|[p Hp]];
      [done |].
    eexists. split; [exact Hp |].
    split; [apply lookup_credentials_login | apply lookup_credentials_key].
Qed.

(** C6.  [get_download_link] called with a file id and a ticket and no
    captcha response sends, next to the two credentials that [_get] puts on
    every request, exactly [file] and [ticket].  Called with a captcha
    response that is not empty it sends the same query with one more
    entry, [captcha_response]. *)
Theorem get_download_link_parameters (E : env) (self : OpenLoad)
    (file_id ticket : pyval) (w : world) :
  (sent (get_download_link E self file_id ticket PyNone) w =
     [dict_update (<["file" := file_id]> {[ "ticket" := ticket ]})
        (credentials self)] /\
   query_keys (get_download_link E self file_id ticket PyNone) w =
     [{[ "login"; "key" ]} ∪ {[ "file"; "ticket" ]}]) /\
  (forall captcha_response,
     truthy captcha_response = true ->
     sent (get_download_link E self file_id ticket captcha_response) w =
       [<["captcha_response" := captcha_response]>
          (dict_update (<["file" := file_id]> {[ "ticket" := ticket ]})
             (credentials self))] /\
     query_keys (get_download_link E self file_id ticket captcha_response) w =
       [{[ "captcha_response" ]} ∪ ({[ "login"; "key" ]} ∪ {[ "file"; "ticket" ]})] /\
     dict_update (<["file" := file_id]> {[ "ticket" := ticket ]})
       (credentials self) !! "captcha_response" = None).
Proof.
  split.
  - unfold query_keys, get_download_link. simpl truthy. cbv iota.
    rewrite get_sent. split; [reflexivity |].
    simpl. rewrite dom_credentials, dom_insert_L, dom_singleton_L. reflexivity.
  - intros c Hc. unfold query_keys, get_download_link. rewrite Hc, get_sent.
    assert (Hq : dict_update
                   (<["captcha_response" := c]>
                      (<["file" := file_id]> {[ "ticket" := ticket ]}))
                   (credentials self) =
                 <["captcha_response" := c]>
                   (dict_update (<["file" := file_id]> {[ "ticket" := ticket ]})
                      (credentials self))).
    { unfold dict_update. rewrite insert_union_r; [done |].
      unfold credentials. by rewrite !lookup_insert_ne. }
    rewrite Hq. split; [reflexivity |]. split.
    + simpl. rewrite dom_insert_L, dom_credentials, dom_insert_L, dom_singleton_L.
      reflexivity.
    + rewrite lookup_credentials_other by done.
      by rewrite !lookup_insert_ne.
Qed.

(** ** Filtering of optional arguments *)

Lemma kwargs_filter_lookup_None (kwargs : gmap string pyval) k :
  kwargs !! k = None \/ (exists v, kwargs !! k = Some v /\ truthy v = false) ->
  kwargs_filter kwargs !! k = None.
Proof.
  intros H. unfold kwargs_filter. apply map_lookup_filter_None.
  destruct H as [H|(v & Hv & Hf)]; [by left |].
  right. intros x Hx. simpl. congruence.
Qed.

Lemma kwargs_filter_insert (kwargs : gmap string pyval) k v :
  truthy v = true ->
  kwargs_filter (<[k := v]> kwargs) = <[k := v]> (kwargs_filter kwargs).
Proof. intros H. unfold kwargs_filter. by apply map_filter_insert_True. Qed.

Section Optional.

Variable self : OpenLoad.

(** An optional argument passed by position, sent under [name] on top of
    the fixed entries [base]. *)
Lemma positional_property name (base : gmap string pyval) (op : pyval -> M pyval) :
  name <> "login" -> name <> "key" -> base !! name = None ->
  (forall v w,
     sent (op v) w =
       [dict_update (if truthy v then <[name := v]> base else base)
          (credentials self)]) ->
  omits_empty_argument name op /\ argument_adds_key name op.
Proof.
  intros Hl Hk Hb Hop. split.
  - intros w v Hv. eexists. split; [apply Hop |].
    rewrite Hv, lookup_credentials_other by done. exact Hb.
  - intros w v Hv. unfold query_keys. rewrite !Hop, Hv. simpl truthy. cbv iota.
    do 2 eexists. split; [reflexivity |]. split; [reflexivity |].
    rewrite !dom_credentials, dom_insert_L.
    apply not_elem_of_dom in Hb. split; [| set_solver].
    apply strict_spec_alt. split; [set_solver |].
    intros Heq.
    assert (Hin : name ∈ ({[ "login"; "key" ]} ∪ dom base : gset string))
      by (rewrite Heq; set_solver).
    set_solver.
Qed.

(** Optional arguments collected by [**kwargs], sent on top of the fixed
    entries [base]. *)
Lemma keyword_property (reserved : gset string) (declared : list string)
    (base : gmap string pyval) (op : gmap string pyval -> M pyval) :
  {[ "login"; "key" ]} ∪ dom base ⊆ reserved ->
  (forall kwargs w,
     sent (op kwargs) w =
       [dict_update (dict_update base (kwargs_filter kwargs)) (credentials self)]) ->
  omits_empty_keyword reserved declared op /\
  keyword_adds_key reserved declared op.
Proof.
  intros Hres Hop.
  assert (Hout : forall k, k ∉ reserved ->
                   k <> "login" /\ k <> "key" /\ base !! k = None).
  { intros k Hk. repeat split.
    - intros ->. apply Hk, Hres. set_solver.
    - intros ->. apply Hk, Hres. set_solver.
    - apply not_elem_of_dom. intros Hd. apply Hk, Hres. set_solver. }
  split.
  - intros w kwargs k _ _ Hk Hv. destruct (Hout k Hk) as (Hl & Hkey & Hb).
    eexists. split; [apply Hop |].
    rewrite lookup_credentials_other by done.
    unfold dict_update. apply lookup_union_None. split; [| exact Hb].
    by apply kwargs_filter_lookup_None.
  - intros w kwargs k v _ _ Hk Hnone Hv. destruct (Hout k Hk) as (Hl & Hkey & Hb).
    unfold query_keys. rewrite !Hop. rewrite (kwargs_filter_insert _ _ _ Hv).
    do 2 eexists. split; [reflexivity |]. split; [reflexivity |].
    simpl. rewrite !dom_credentials. unfold dict_update.
    rewrite !dom_union_L, dom_insert_L.
    assert (Hf : k ∉ dom (kwargs_filter kwargs)).
    { apply not_elem_of_dom, kwargs_filter_lookup_None. by left. }
    apply not_elem_of_dom in Hb. split; [| set_solver].
    apply strict_spec_alt. split; [set_solver |].
    intros Heq.
    assert (Hin : k ∈ ({[ "login"; "key" ]} ∪
                        (dom (kwargs_filter kwargs) ∪ dom base) : gset string))
      by (rewrite Heq; set_solver).
    set_solver.
Qed.

End Optional.

(** C5.  In every operation that has optional arguments, an optional
    argument that is left out or empty does not appear in the query, and
    the call without the argument sends a strict subset of the keys that
    the call with a non-empty value for it sends: exactly one key less.
    For the operations that take [**kwargs] the optional arguments are the
    keywords that [**kwargs] can collect, so not the names of the declared
    parameters of the method, other than the query keys that the client
    sets itself. *)
Theorem empty_optional_arguments_are_omitted (E : env) (self : OpenLoad)
    (file_id ticket remote_url : pyval) (file_path : string) :
  (omits_empty_argument "captcha_response"
     (get_download_link E self file_id ticket) /\
   argument_adds_key "captcha_response"
     (get_download_link E self file_id ticket)) /\
  (omits_empty_keyword {[ "login"; "key" ]} ["self"] (upload_link E self) /\
   keyword_adds_key {[ "login"; "key" ]} ["self"] (upload_link E self)) /\
  (omits_empty_keyword {[ "login"; "key" ]} ["self"; "file_path"]
     (upload_file E self file_path) /\
   keyword_adds_key {[ "login"; "key" ]} ["self"; "file_path"]
     (upload_file E self file_path)) /\
  (omits_empty_keyword {[ "login"; "key"; "url" ]} ["self"; "remote_url"]
     (remote_upload E self remote_url) /\
   keyword_adds_key {[ "login"; "key"; "url" ]} ["self"; "remote_url"]
     (remote_upload E self remote_url)) /\
  (omits_empty_keyword {[ "login"; "key" ]} ["self"]
     (remote_upload_status E self) /\
   keyword_adds_key {[ "login"; "key" ]} ["self"]
     (remote_upload_status E self)) /\
  (omits_empty_argument "folder" (list_folder E self) /\
   argument_adds_key "folder" (list_folder E self)) /\
  (omits_empty_argument "folder" (running_conversions E self) /\
   argument_adds_key "folder" (running_conversions E self)).
Proof.
  repeat apply conj.
  1, 2: eapply (positional_property self "captcha_response"
                  (<["file" := file_id]> {[ "ticket" := ticket ]})); try done;
        intros v w; unfold get_download_link; apply get_sent.
  1, 2: eapply (keyword_property self _ _ ∅); [set_solver |];
        intros kwargs w; unfold upload_link;
        by rewrite get_sent, dict_update_empty.
  1, 2: eapply (keyword_property self _ _ ∅); [set_solver |];
        intros kwargs w; by rewrite upload_file_sent, dict_update_empty.
  1, 2: eapply (keyword_property self _ _ {[ "url" := remote_url ]});
        [rewrite dom_singleton_L; set_solver |];
        intros kwargs w; unfold remote_upload; apply get_sent.
  1, 2: eapply (keyword_property self _ _ ∅); [set_solver |];
        intros kwargs w; unfold remote_upload_status;
        by rewrite get_sent, dict_update_empty.
  1, 2: eapply (positional_property self "folder" ∅); try done;
        intros v w; unfold list_folder; apply positional_sent.
  1, 2: eapply (positional_property self "folder" ∅); try done;
        intros v w; unfold running_conversions; apply positional_sent.
Qed.

(** ** The theorems at sample inputs *)

(** A 403 without a [result] is raised as [PermissionDeniedException]. *)
Lemma classified_status_raises_at_403 :
  error_kind_of 403 PermissionDeniedException /\
  (_get (E_const (PyDict denied)) me "file/info"
     (PyDict {[ "file" := PyStr "TJNMUk2hnYs" ]}) w0).2 =
    inl (PermissionDeniedException (PyStr "Permission denied")) /\
  "result" ∉ items_read
    (new_events (_get (E_const (PyDict denied)) me "file/info"
                   (PyDict {[ "file" := PyStr "TJNMUk2hnYs" ]})) w0).
Proof.
  split; [constructor |].
  destruct (classified_status_raises (E_const (PyDict denied)) me "file/info"
              {[ "file" := PyStr "TJNMUk2hnYs" ]} denied 403
              (PyStr "Permission denied") PermissionDeniedException w0)
    as (_ & Hraise & _ & Hresult);
    [reflexivity | reflexivity | reflexivity | constructor |].
  split; [exact Hraise | exact Hresult].
Defined.

(** The upload URL granted by [E_ok] comes back as it is. *)
Lemma status_200_returns_result_at_upload_link :
  (_get E_ok me "file/ul" (PyDict ∅) w0).2 =
    inr (PyDict {[ "url" := PyStr "https://up" ]}).
Proof.
  apply (fun H1 H2 H3 H4 =>
           proj2 (status_200_returns_result E_ok me "file/ul" ∅
                    (envelope 200 "OK" (PyDict {[ "url" := PyStr "https://up" ]}))
                    (PyStr "OK") (PyDict {[ "url" := PyStr "https://up" ]}) w0
                    H1 H2 H3 H4));
    reflexivity.
Defined.

(** C3 as it is written fails: a 401 without a [result] raises. *)
Lemma unclassified_status_without_result_raises :
  unclassified 401 /\
  unauthorized !! "status" = Some (PyInt 401) /\
  unauthorized !! "result" = None /\
  (_get (E_const (PyDict unauthorized)) me "account/info" (PyDict ∅) w0).2 =
    inl (KeyError "result") /\
  (_process_response (PyDict unauthorized) w0).2 = inl (KeyError "result").
Proof. unfold unclassified. repeat split; try lia; reflexivity. Qed.

(** A 401 with a [result] hands that [result] over. *)
Lemma unclassified_status_falls_through_at_401 :
  unclassified 401 /\
  (_get (E_const (PyDict (envelope 401 "Unauthorized" PyNone))) me
     "account/info" (PyDict ∅) w0).2 = inr PyNone.
Proof.
  assert (Hu : unclassified 401) by (unfold unclassified; lia).
  split; [exact Hu |].
  apply (fun H1 H2 H3 =>
           proj2 (unclassified_status_falls_through
                    (E_const (PyDict (envelope 401 "Unauthorized" PyNone))) me
                    "account/info" ∅ (envelope 401 "Unauthorized" PyNone) 401
                    (PyStr "Unauthorized") w0 H1 H2 H3 Hu));
    reflexivity.
Defined.

(** Status 200 and a good [result], yet no [msg]: a [KeyError]. *)
Lemma missing_status_or_msg_is_key_error_at_200 :
  _process_response (PyDict no_status) w0 =
    (log_items ["status"] w0, inl (KeyError "status")) /\
  _process_response (PyDict no_msg) w0 =
    (log_items ["status"; "msg"] w0, inl (KeyError "msg")).
Proof.
  split.
  - apply (missing_status_or_msg_is_key_error no_status w0). reflexivity.
  - apply (proj2 (missing_status_or_msg_is_key_error no_msg w0) (PyInt 200));
      reflexivity.
Defined.

(** Credentials given by the caller are overwritten. *)
Lemma credentials_always_sent_at_upload_link :
  exists q,
    sent (call E_ok me (Upload_link {[ "login" := PyStr "intruder" ]})) w0 = [q] /\
    q !! "login" = Some (PyStr "my-login") /\ q !! "key" = Some (PyStr "my-key").
Proof.
  apply (proj2 (credentials_always_sent E_ok (PyStr "my-login") (PyStr "my-key") w0)
           (Upload_link {[ "login" := PyStr "intruder" ]})).
  discriminate.
Defined.

(** [folder] is sent when it is given. *)
Lemma empty_optional_arguments_are_omitted_at_folder :
  exists K K',
    query_keys (upload_link E_ok me ∅) w0 = [K] /\
    query_keys (upload_link E_ok me (<["folder" := PyStr "4258"]> ∅)) w0 = [K'] /\
    K ⊂ K' /\ K' = {[ "folder" ]} ∪ K.
Proof.
  apply (proj2 (proj1 (proj2
           (empty_optional_arguments_are_omitted E_ok me PyNone PyNone PyNone
              "movie.mp4"))) w0 ∅
           "folder" (PyStr "4258")).
  - repeat constructor.
  - apply (bool_decide_unpack _). vm_compute. exact I.
  - apply (bool_decide_unpack _). vm_compute. exact I.
  - reflexivity.
  - reflexivity.
Defined.

(** The scenario of the specification. *)
Lemma get_download_link_parameters_at_scenario :
  sent (get_download_link E_ok me (PyStr "TJNMUk2hnYs") (PyStr "abc123")
          (PyStr "solved")) w0 =
    [<["captcha_response" := PyStr "solved"]>
       (dict_update (<["file" := PyStr "TJNMUk2hnYs"]> {[ "ticket" := PyStr "abc123" ]})
          (credentials me))].
Proof.
  apply (proj2 (get_download_link_parameters E_ok me (PyStr "TJNMUk2hnYs")
                  (PyStr "abc123") w0) (PyStr "solved")).
  reflexivity.
Defined.

(** A refused request for an upload URL: no POST.  A granted one: the
    answer to the POST is processed. *)
Lemma upload_file_two_steps_at_samples :
  posted (new_events (upload_file (E_const (PyDict denied)) me "movie.mp4" ∅) w0) = [] /\
  (upload_file E_ok me "movie.mp4" ∅ w0).2 = inr (PyStr "done").
Proof.
  split.
  - eapply (proj1 (upload_file_two_steps (E_const (PyDict denied)) me "movie.mp4" ∅ w0)).
    vm_compute. reflexivity.
  - erewrite (proj2 (upload_file_two_steps E_ok me "movie.mp4" ∅ w0));
      [| vm_compute; reflexivity | reflexivity | reflexivity | reflexivity].
    reflexivity.
Defined.

(** C9 as it is written fails: after a successful upload the descriptor
    of the uploaded file has not been closed. *)
Lemma upload_file_leaks_on_success :
  (upload_file E_ok me "movie.mp4" ∅ w0).2 = inr (PyStr "done") /\
  opened (new_events (upload_file E_ok me "movie.mp4" ∅) w0) = [0%nat] /\
  open_files (upload_file E_ok me "movie.mp4" ∅ w0).1 = [0%nat] /\
  ~ releases_opened_files (upload_file E_ok me "movie.mp4" ∅).
Proof.
  repeat split; try (vm_compute; reflexivity).
  intros H. apply (H w0 0%nat).
  - change (0%nat ∈ [0%nat]). apply list_elem_of_here.
  - change (0%nat ∈ [0%nat]). apply list_elem_of_here.
Qed.

(** ** Values that are not what the client expects *)

(** X1.  A [status] that is not a number does not compare with [>=]: once
    the five equality tests have failed, the test [status >= 500] raises
    [TypeError].  A boolean [status] counts as 0 or 1 and passes. *)
Theorem status_not_an_integer (d : gmap string pyval) (status msg : pyval)
    (w : world) :
  d !! "status" = Some status ->
  d !! "msg" = Some msg ->
  ((forall n, status <> PyInt n) -> (forall b, status <> PyBool b) ->
     _process_response (PyDict d) w =
       (log_items ["status"; "msg"] w, inl TypeError)) /\
  ((exists b, status = PyBool b) ->
     _process_response (PyDict d) w =
       (log_items ["status"; "msg"; "result"] w, subscript (PyDict d) "result")).
Proof.
  intros Hs Hm. split.
  - intros Hn Hb. unfold _process_response, bind at 1.
    rewrite (check_status_dict d status msg w Hs Hm).
    destruct status; try (by destruct (Hn n)); try (by destruct (Hb b));
      reflexivity.
  - intros [b ->]. unfold _process_response, bind at 1.
    rewrite (check_status_dict d (PyBool b) msg w Hs Hm).
    replace (py_eq_int (PyBool b) 400) with false by (by destruct b).
    replace (py_eq_int (PyBool b) 403) with false by (by destruct b).
    replace (py_eq_int (PyBool b) 404) with false by (by destruct b).
    replace (py_eq_int (PyBool b) 451) with false by (by destruct b).
    replace (py_eq_int (PyBool b) 509) with false by (by destruct b).
    replace (py_ge_int (PyBool b) 500) with (inr false : exn + bool)
      by (by destruct b).
    unfold bind, lift, ret. cbv beta iota. by rewrite getitem_eq, log_items_app.
Qed.

(** X2.  A body that is not a dictionary fails on the first subscript:
    [_process_response], and with it [_get], raises [TypeError] after the
    single lookup of [status]. *)
Theorem body_not_a_dictionary (E : env) (self : OpenLoad) (url : string)
    (p : gmap string pyval) (body : pyval) (w : world) :
  (forall d, body <> PyDict d) ->
  requests_get E (trace w) (api_url self ++ url)%string
    (dict_update p (credentials self)) = inr body ->
  _process_response body w = (log_items ["status"] w, inl TypeError) /\
  (_get E self url (PyDict p) w).2 = inl TypeError /\
  items_read (new_events (_get E self url (PyDict p)) w) = ["status"].
Proof.
  intros Hd Hget.
  assert (Hp : forall w', _process_response body w' =
                 (log_items ["status"] w', inl TypeError)).
  { intros w'. unfold _process_response, _check_status, bind.
    rewrite getitem_eq. destruct body; try reflexivity. by destruct (Hd d). }
  split; [apply Hp |].
  rewrite (get_answered E self url p body w Hget), Hp. split; [reflexivity |].
  erewrite new_events_app.
  2:{ rewrite (get_answered E self url p body w Hget), Hp. simpl.
      rewrite <- app_assoc. reflexivity. }
  reflexivity.
Qed.

(** X3.  [if not params] turns every empty value, not only [None], into
    an empty dictionary; a non-empty value that is not a dictionary has no
    [update], and [_get] raises [AttributeError] before any request is
    made. *)
Theorem get_params_edge_cases (E : env) (self : OpenLoad) (url : string)
    (params : pyval) (w : world) :
  (truthy params = false ->
     _get E self url params w = _get E self url (PyDict ∅) w) /\
  (truthy params = true -> (forall d, params <> PyDict d) ->
     _get E self url params w = (w, inl AttributeError)).
Proof.
  split.
  - intros Ht. unfold _get. rewrite Ht. reflexivity.
  - intros Ht Hd. unfold _get. rewrite Ht. simpl negb. cbv iota.
    destruct params; try reflexivity. by destruct (Hd d).
Qed.

(** ** All operations at once *)

(** Every operation but [upload_file] and [failed_conversions] is one call
    of [_get] on the path of [endpoint]; the dictionary handed over does
    not depend on the environment. *)
Lemma call_cases (self : OpenLoad) (op : operation) :
  (exists url (p : gmap string pyval),
     endpoint op = Some url /\
     forall E w, call E self op w = _get E self url (PyDict p) w) \/
  (exists path kwargs, op = Upload_file path kwargs) \/
  op = Failed_conversions.
Proof.
  destruct op; simpl;
    try (left; do 2 eexists; split; [reflexivity |]; intros E w; reflexivity);
    try (right; left; by do 2 eexists);
    try (right; right; reflexivity).
  left. exists "account/info", ∅. split; [reflexivity |].
  intros E w. apply get_none.
Qed.

Lemma get_failed (E : env) (self : OpenLoad) url (p : gmap string pyval) e w :
  requests_get E (trace w) (api_url self ++ url)%string
    (dict_update p (credentials self)) = inl e ->
  _get E self url (PyDict p) w =
    (log (EvGet (api_url self ++ url)%string (dict_update p (credentials self))) w,
     inl e).
Proof. intros H. rewrite get_dict. unfold bind, http_get. by rewrite H. Qed.

Lemma new_events_log {A} (m : M A) w e :
  (m w).1 = log e w -> new_events m w = [e].
Proof. intros H. apply new_events_app. by rewrite H. Qed.

(** X4.  When the transport raises on the GET, every operation that makes
    a request raises that same exception; no body is subscripted, no file
    is opened and nothing is POSTed. *)
Theorem transport_error_propagates (E : env) (self : OpenLoad) (op : operation)
    (e : exn) (w : world) :
  (forall url q, requests_get E (trace w) url q = inl e) ->
  op <> Failed_conversions ->
  (call E self op w).2 = inl e /\
  items_read (new_events (call E self op) w) = [] /\
  opened (new_events (call E self op) w) = [] /\
  posted (new_events (call E self op) w) = [] /\
  length (sent (call E self op) w) = 1%nat.
Proof.
  intros Hdown Hop.
  assert (Hget : forall url p,
            (_get E self url (PyDict p) w).2 = inl e /\
            new_events (_get E self url (PyDict p)) w =
              [EvGet (api_url self ++ url)%string
                 (dict_update p (credentials self))]).
  { intros url p. rewrite (new_events_log _ w (EvGet (api_url self ++ url)%string
                                               (dict_update p (credentials self))));
      by rewrite (get_failed E self url p e w (Hdown _ _)). }
  destruct (call_cases self op) as [(url & p & _ & Hc)|[(path & kwargs & ->)|?]];
    [| | done].
  - destruct (Hget url p) as [Hr Hn].
    unfold sent, new_events in *. rewrite Hc, Hr, Hn. by repeat split.
  - destruct (Hget "file/ul" (kwargs_filter kwargs)) as [Hr Hn].
    simpl call. unfold sent, new_events in *. rewrite upload_file_split.
    unfold upload_link.
    destruct (_get E self "file/ul" (PyDict (kwargs_filter kwargs)) w)
      as [w1 [e'|r]]; simpl in *; [| discriminate].
    rewrite Hr, Hn. by repeat split.
Qed.

(** X5.  No operation other than [upload_file] opens a file or makes a
    POST: the open descriptors and the descriptor counter are what they
    were. *)
Theorem only_upload_file_touches_files (E : env) (self : OpenLoad)
    (op : operation) (w : world) :
  (forall path kwargs, op <> Upload_file path kwargs) ->
  opened (new_events (call E self op) w) = [] /\
  posted (new_events (call E self op) w) = [] /\
  open_files (call E self op w).1 = open_files w /\
  next_fd (call E self op w).1 = next_fd w.
Proof.
  intros Hop.
  destruct (call_cases self op) as [(url & p & _ & Hc)|[(path & kwargs & ->) | -> ]].
  - destruct (get_new_events E self url p w) as [ks Hn].
    destruct (get_world E self url p w) as [ks' Hw].
    unfold new_events in *. rewrite Hc, Hn, Hw. simpl.
    by rewrite opened_items, posted_items.
  - by destruct (Hop path kwargs).
  - simpl call. by rewrite failed_conversions_silent.
Qed.

(** X6.  Every operation that makes a request starts with a GET to the
    client's base URL followed by the path of the operation, and makes no
    other GET.  For a client built by [__init__] the base URL is
    [https://api.openload.co/1/], whatever the credentials. *)
Theorem operations_request_their_endpoint (E : env) (api_login api_key : pyval)
    (op : operation) (path : string) (w : world) :
  endpoint op = Some path ->
  exists q t,
    new_events (call E (__init__ api_login api_key) op) w =
      EvGet ("https://api.openload.co/1/" ++ path)%string q :: t /\
    sent_params t = [].
Proof.
  intros Hpath.
  destruct (call_cases (__init__ api_login api_key) op)
    as [(url & p & Hurl & Hc)|[(fp & kwargs & ->) | -> ]]; [| | discriminate].
  - rewrite Hurl in Hpath. injection Hpath as ->.
    destruct (get_new_events E (__init__ api_login api_key) path p w) as [ks Hn].
    unfold new_events in *. rewrite Hc, Hn.
    do 2 eexists. split; [reflexivity | apply sent_params_items].
  - injection Hpath as <-.
    destruct (upload_file_run E (__init__ api_login api_key) fp kwargs w)
      as (t & Hn & Hs & _).
    simpl call. rewrite Hn. do 2 eexists. split; [reflexivity | exact Hs].
Qed.

(** X7.  What an operation sends depends on the client and on the
    arguments only: not on what the service answers, and not on anything
    that happened before. *)
Theorem queries_do_not_depend_on_history (E E' : env) (self : OpenLoad)
    (op : operation) (w w' : world) :
  sent (call E self op) w = sent (call E' self op) w'.
Proof.
  destruct (call_cases self op) as [(url & p & _ & Hc)|[(path & kwargs & ->) | -> ]].
  - pose proof (get_sent E self url p w) as H1.
    pose proof (get_sent E' self url p w') as H2.
    unfold sent, new_events in *. rewrite !Hc. by rewrite H1, H2.
  - simpl call. by rewrite !upload_file_sent.
  - simpl call. unfold sent. by rewrite !failed_conversions_silent.
Qed.

(** ** More on optional arguments *)

Lemma kwargs_filter_delete (kwargs : gmap string pyval) k v :
  kwargs !! k = Some v -> truthy v = false ->
  kwargs_filter (delete k kwargs) = kwargs_filter kwargs.
Proof.
  intros Hk Hv. unfold kwargs_filter. apply map_filter_delete_not.
  intros y Hy. simpl. congruence.
Qed.

Lemma kwargs_filter_lookup_Some (kwargs : gmap string pyval) k v :
  kwargs !! k = Some v -> truthy v = true -> kwargs_filter kwargs !! k = Some v.
Proof. intros Hk Hv. unfold kwargs_filter. by apply map_lookup_filter_Some. Qed.

(** X8.  Among the keywords that [**kwargs] collects, one with an empty
    value makes the same call as the one without that keyword: same
    request, same answer, same state.  The keywords are collected only
    when none of them names a declared parameter of the method. *)
Theorem empty_keyword_is_same_call (E : env) (self : OpenLoad)
    (remote_url : pyval) (file_path : string) (kwargs : gmap string pyval)
    (k : string) (v : pyval) (w : world) :
  kwargs !! k = Some v ->
  truthy v = false ->
  (collectable ["self"] kwargs ->
     upload_link E self kwargs w = upload_link E self (delete k kwargs) w) /\
  (collectable ["self"; "file_path"] kwargs ->
     upload_file E self file_path kwargs w =
       upload_file E self file_path (delete k kwargs) w) /\
  (collectable ["self"; "remote_url"] kwargs ->
     remote_upload E self remote_url kwargs w =
       remote_upload E self remote_url (delete k kwargs) w) /\
  (collectable ["self"] kwargs ->
     remote_upload_status E self kwargs w =
       remote_upload_status E self (delete k kwargs) w).
Proof.
  intros Hk Hv.
  unfold upload_file, upload_link, remote_upload, remote_upload_status.
  by rewrite (kwargs_filter_delete kwargs k v Hk Hv).
Qed.

(** X9.  An optional argument passed by position with an empty value
    ([0], the empty string, [False], ...) is the same call as the one that
    leaves it at its default [None]. *)
Theorem empty_argument_is_same_call (E : env) (self : OpenLoad)
    (file_id ticket v : pyval) (w : world) :
  truthy v = false ->
  get_download_link E self file_id ticket v w =
    get_download_link E self file_id ticket PyNone w /\
  list_folder E self v w = list_folder E self PyNone w /\
  running_conversions E self v w = running_conversions E self PyNone w.
Proof.
  intros Hv. unfold get_download_link, list_folder, running_conversions.
  by rewrite Hv.
Qed.

(** X10.  Among the keywords that [**kwargs] collects, one with a
    non-empty value, under any name but [login] and [key], is sent as it
    is.  The keywords are collected only when none of them names a
    declared parameter of the method. *)
Theorem keyword_value_is_sent (E : env) (self : OpenLoad)
    (remote_url : pyval) (file_path : string) (kwargs : gmap string pyval)
    (k : string) (v : pyval) (w : world) :
  kwargs !! k = Some v ->
  truthy v = true ->
  k <> "login" -> k <> "key" ->
  (collectable ["self"] kwargs ->
   exists q, sent (upload_link E self kwargs) w = [q] /\ q !! k = Some v) /\
  (collectable ["self"; "file_path"] kwargs ->
   exists q, sent (upload_file E self file_path kwargs) w = [q] /\
             q !! k = Some v) /\
  (collectable ["self"; "remote_url"] kwargs ->
   exists q, sent (remote_upload E self remote_url kwargs) w = [q] /\
             q !! k = Some v) /\
  (collectable ["self"] kwargs ->
   exists q, sent (remote_upload_status E self kwargs) w = [q] /\
             q !! k = Some v).
Proof.
  intros Hk Hv Hl Hkey.
  pose proof (kwargs_filter_lookup_Some kwargs k v Hk Hv) as Hf.
  repeat apply conj; intros _; eexists;
    (split;
     [first [apply upload_file_sent | apply get_sent]
     | rewrite lookup_credentials_other by done;
       first [exact Hf | by apply lookup_union_Some_l]]).
Qed.

(** X11.  [remote_upload] sends its first argument under [url], unless
    the keywords hold a non-empty [url] of their own: then that one is
    sent instead. *)
Theorem remote_upload_url (E : env) (self : OpenLoad) (remote_url : pyval)
    (kwargs : gmap string pyval) (w : world) :
  (kwargs !! "url" = None \/
   (exists v, kwargs !! "url" = Some v /\ truthy v = false) ->
   exists q, sent (remote_upload E self remote_url kwargs) w = [q] /\
             q !! "url" = Some remote_url) /\
  (forall v, kwargs !! "url" = Some v -> truthy v = true ->
   exists q, sent (remote_upload E self remote_url kwargs) w = [q] /\
             q !! "url" = Some v).
Proof.
  split.
  - intros H. eexists. split; [apply get_sent |].
    rewrite lookup_credentials_other by done. unfold dict_update.
    rewrite lookup_union_r by (by apply kwargs_filter_lookup_None).
    apply lookup_singleton_eq.
  - intros v Hk Hv. eexists. split; [apply get_sent |].
    rewrite lookup_credentials_other by done.
    apply lookup_union_Some_l. by apply kwargs_filter_lookup_Some.
Qed.

(** X12.  The operations on one file send their argument under [file]
    whatever it is, an empty value included: the query has the keys
    [login], [key] and [file] and no other. *)
Theorem file_operations_send_file (E : env) (self : OpenLoad) (file_id : pyval)
    (w : world) :
  Forall (fun op : pyval -> M pyval =>
            exists q, sent (op file_id) w = [q] /\
                      q !! "file" = Some file_id /\
                      dom q = {[ "login"; "key"; "file" ]})
    [prepare_download E self; file_info E self; convert_file E self;
     splash_image E self].
Proof.
  repeat apply Forall_cons_2; [| | | | apply Forall_nil_2];
    (eexists; split; [apply get_sent |]; split;
     [rewrite lookup_credentials_other by done; apply lookup_singleton_eq
     | rewrite dom_credentials, dom_singleton_L; set_solver]).
Qed.

(** X13.  [list_folder] and [running_conversions] without a folder id send
    the two credentials and nothing else, as [account_info] does; with a
    non-empty folder id they send the credentials and that id under
    [folder]. *)
Theorem folder_operations_query (E : env) (self : OpenLoad) (w : world) :
  sent (account_info E self) w = [credentials self] /\
  sent (list_folder E self PyNone) w = [credentials self] /\
  sent (running_conversions E self PyNone) w = [credentials self] /\
  (forall folder_id, truthy folder_id = true ->
     sent (list_folder E self folder_id) w =
       [<["folder" := folder_id]> (credentials self)] /\
     sent (running_conversions E self folder_id) w =
       [<["folder" := folder_id]> (credentials self)]).
Proof.
  assert (He : dict_update ∅ (credentials self) = credentials self)
    by apply dict_update_empty.
  repeat apply conj.
  - unfold account_info. by rewrite get_none_sent, He.
  - unfold list_folder. simpl truthy. cbv iota. by rewrite get_sent, He.
  - unfold running_conversions. simpl truthy. cbv iota. by rewrite get_sent, He.
  - intros v Hv. unfold list_folder, running_conversions. rewrite Hv, !get_sent.
    assert (Hq : dict_update {[ "folder" := v ]} (credentials self) =
                 <["folder" := v]> (credentials self)).
    { unfold dict_update. symmetry. apply insert_union_singleton_r.
      unfold credentials. by rewrite !lookup_insert_ne. }
    by rewrite Hq.
Qed.

(** ** The upload hand-off, step by step *)

Section UploadSteps.

Variable E : env.
Variable self : OpenLoad.

Lemma upload_link_world kwargs w :
  exists ks,
    (upload_link E self kwargs w).1 =
      log_items ks
        (log (EvGet (api_url self ++ "file/ul")%string
                (dict_update (kwargs_filter kwargs) (credentials self))) w).
Proof. apply get_world. Qed.

Lemma new_events_after_get {A} (m : M A) w e ks t :
  trace (m w).1 = trace (log_items ks (log e w)) ++ t ->
  new_events m w = e :: (EvItem <$> ks) ++ t.
Proof.
  intros H. apply new_events_app. rewrite H. simpl. by rewrite <- !app_assoc.
Qed.

Lemma upload_file_no_url path kwargs w w1 r e :
  upload_link E self kwargs w = (w1, inr r) ->
  subscript r "url" = inl e ->
  upload_file E self path kwargs w = (log_items ["url"] w1, inl e).
Proof.
  intros Hl Hu. rewrite upload_file_split, Hl.
  unfold after_upload_link, bind at 1. by rewrite getitem_eq, Hu.
Qed.

Lemma upload_file_no_open path kwargs w w1 r u :
  upload_link E self kwargs w = (w1, inr r) ->
  subscript r "url" = inr u ->
  fs_open E (trace (log_items ["url"] w1)) path = false ->
  upload_file E self path kwargs w =
    (log_items ["url"] w1, inl (if has_nul path then ValueError else IOError)).
Proof.
  intros Hl Hu Ho. rewrite upload_file_split, Hl.
  unfold after_upload_link, bind at 1. rewrite getitem_eq, Hu.
  unfold bind at 1, py_open. by rewrite Ho.
Qed.

Lemma upload_file_posting path kwargs w w1 r u :
  upload_link E self kwargs w = (w1, inr r) ->
  subscript r "url" = inr u ->
  fs_open E (trace (log_items ["url"] w1)) path = true ->
  upload_file E self path kwargs w =
    match requests_post E (trace (file_opened path (log_items ["url"] w1))) u
            (next_fd w1) with
    | inr resp =>
        _process_response resp
          (log (EvPost u (next_fd w1)) (file_opened path (log_items ["url"] w1)))
    | inl e =>
        (log (EvPost u (next_fd w1)) (file_opened path (log_items ["url"] w1)),
         inl e)
    end.
Proof.
  intros Hl Hu Ho. rewrite upload_file_split, Hl.
  unfold after_upload_link, bind at 1. rewrite getitem_eq, Hu.
  unfold bind at 1, py_open. rewrite Ho.
  unfold bind at 1, http_post. simpl next_fd.
  by destruct (requests_post E _ u (next_fd w1)).
Qed.

End UploadSteps.

(** X14.  When the object that [upload_link] returns has no [url], or is
    not a dictionary at all, [upload_file] raises the error of that lookup
    ([KeyError] or [TypeError]); the file is not opened and nothing is
    POSTed. *)
Theorem upload_file_without_url (E : env) (self : OpenLoad) (path : string)
    (kwargs : gmap string pyval) (w w1 : world) (r : pyval) (e : exn) :
  upload_link E self kwargs w = (w1, inr r) ->
  subscript r "url" = inl e ->
  (e = KeyError "url" \/ e = TypeError) /\
  upload_file E self path kwargs w = (log_items ["url"] w1, inl e) /\
  opened (new_events (upload_file E self path kwargs) w) = [] /\
  posted (new_events (upload_file E self path kwargs) w) = [].
Proof.
  intros Hl Hu.
  split.
  { destruct r; simpl in Hu; try (injection Hu as <-; by right).
    destruct (d !! "url"); [discriminate | injection Hu as <-; by left]. }
  pose proof (upload_file_no_url E self path kwargs w w1 r e Hl Hu) as Hf.
  split; [exact Hf |].
  destruct (upload_link_world E self kwargs w) as [ks Hw].
  rewrite Hl in Hw. simpl in Hw.
  rewrite (new_events_after_get (upload_file E self path kwargs) w _ ks
             [EvItem "url"]) by (by rewrite Hf, Hw).
  simpl. by rewrite opened_app, posted_app, opened_items, posted_items.
Qed.


(** X16.  When the transport raises on the POST, [upload_file] raises
    that same exception; the answer is not looked at. *)
Theorem upload_file_post_error_propagates (E : env) (self : OpenLoad)
    (path : string) (kwargs : gmap string pyval) (w w1 : world)
    (r u : pyval) (e : exn) :
  upload_link E self kwargs w = (w1, inr r) ->
  subscript r "url" = inr u ->
  fs_open E (trace (log_items ["url"] w1)) path = true ->
  requests_post E (trace (file_opened path (log_items ["url"] w1))) u
    (next_fd w1) = inl e ->
  upload_file E self path kwargs w =
    (log (EvPost u (next_fd w1)) (file_opened path (log_items ["url"] w1)),
     inl e) /\
  posted (new_events (upload_file E self path kwargs) w) = [next_fd w1].
Proof.
  intros Hl Hu Ho Hp.
  pose proof (upload_file_posting E self path kwargs w w1 r u Hl Hu Ho) as Hf.
  rewrite Hp in Hf. split; [exact Hf |].
  destruct (upload_link_world E self kwargs w) as [ks Hw].
  rewrite Hl in Hw. simpl in Hw.
  erewrite (new_events_after_get (upload_file E self path kwargs) w _ ks
              [EvItem "url"; EvOpen path (next_fd w1); EvPost u (next_fd w1)]).
  2:{ rewrite Hf, Hw. simpl. by rewrite <- !app_assoc. }
  simpl. by rewrite posted_app, posted_items.
Qed.

(** X17.  The answer to the POST is classified like the answer to a GET:
    an envelope whose status is in the table makes [upload_file] raise the
    error kind of that status with the envelope's [msg], and one with
    status 200 makes it return the envelope's [result]. *)
Theorem upload_file_classifies_post_answer (E : env) (self : OpenLoad)
    (path : string) (kwargs d : gmap string pyval) (w w1 : world)
    (r u msg : pyval) (s : Z) :
  upload_link E self kwargs w = (w1, inr r) ->
  subscript r "url" = inr u ->
  fs_open E (trace (log_items ["url"] w1)) path = true ->
  requests_post E (trace (file_opened path (log_items ["url"] w1))) u
    (next_fd w1) = inr (PyDict d) ->
  d !! "status" = Some (PyInt s) ->
  d !! "msg" = Some msg ->
  (forall kind, error_kind_of s kind ->
     (upload_file E self path kwargs w).2 = inl (kind msg)) /\
  (forall result, s = 200 -> d !! "result" = Some result ->
     (upload_file E self path kwargs w).2 = inr result).
Proof.
  intros Hl Hu Ho Hp Hs Hm.
  rewrite (upload_file_posting E self path kwargs w w1 r u Hl Hu Ho), Hp.
  split.
  - intros kind Hk. by rewrite (process_response_raises d s msg kind _ Hs Hm Hk).
  - intros result H200 Hr.
    rewrite (process_response_passes d s msg _ Hs Hm) by (by left).
    simpl. by rewrite Hr.
Qed.

(** X18.  The order of events in every run of [upload_file]: the GET for
    the upload URL and the lookups in its answer; then either nothing more,
    or the lookup of [url] alone, or that lookup followed by one opening of
    the file, one POST of the descriptor just opened, and lookups in the
    answer to the POST.  There is never a second GET, a second POST, or a
    POST without the file. *)
Theorem upload_file_protocol (E : env) (self : OpenLoad) (path : string)
    (kwargs : gmap string pyval) (w : world) :
  exists ks t,
    new_events (upload_file E self path kwargs) w =
      EvGet (api_url self ++ "file/ul")%string
        (dict_update (kwargs_filter kwargs) (credentials self))
        :: (EvItem <$> ks) ++ t /\
    (t = [] \/ t = [EvItem "url"] \/
     exists url ks',
       t = EvItem "url" :: EvOpen path (next_fd w) :: EvPost url (next_fd w)
             :: (EvItem <$> ks')).
Proof.
  destruct (upload_link_world E self kwargs w) as [ks Hw].
  destruct (upload_link E self kwargs w) as [w1 [e|r]] eqn:Hl; simpl in Hw.
  - exists ks, []. split; [| by left].
    apply new_events_after_get. rewrite upload_file_split, Hl, Hw.
    simpl. by rewrite app_nil_r.
  - destruct (subscript r "url") as [e|u] eqn:Hu.
    { exists ks, [EvItem "url"]. split; [| right; by left].
      apply new_events_after_get.
      by rewrite (upload_file_no_url E self path kwargs w w1 r e Hl Hu), Hw. }
    destruct (fs_open E (trace (log_items ["url"] w1)) path) eqn:Ho.
    2:{ exists ks, [EvItem "url"]. split; [| right; by left].
        apply new_events_after_get.
        by rewrite (upload_file_no_open E self path kwargs w w1 r u Hl Hu Ho), Hw. }
    pose proof (upload_file_posting E self path kwargs w w1 r u Hl Hu Ho) as Hf.
    assert (Hfd : next_fd w1 = next_fd w) by (by rewrite Hw).
    destruct (requests_post E _ u (next_fd w1)) as [e|resp].
    + exists ks, [EvItem "url"; EvOpen path (next_fd w); EvPost u (next_fd w)].
      split; [| right; right; by exists u, []].
      apply new_events_after_get. rewrite Hf, Hfd, Hw. simpl.
      by rewrite <- !app_assoc.
    + destruct (process_response_world resp
                  (log (EvPost u (next_fd w1))
                     (file_opened path (log_items ["url"] w1)))) as [ks' Hp].
      exists ks, (EvItem "url" :: EvOpen path (next_fd w) :: EvPost u (next_fd w)
                    :: (EvItem <$> ks')).
      split; [| right; right; by exists u, ks'].
      apply new_events_after_get. rewrite Hf, Hp, Hfd, Hw. simpl.
      by rewrite <- !app_assoc.
Qed.

(** ** The further theorems at sample inputs *)

(** A status sent as the string ["200"] is a [TypeError]. *)
Lemma status_not_an_integer_at_string :
  _process_response
    (PyDict (<["status" := PyStr "200"]> {[ "msg" := PyStr "OK" ]})) w0 =
    (log_items ["status"; "msg"] w0, inl TypeError).
Proof.
  destruct (status_not_an_integer
              (<["status" := PyStr "200"]> {[ "msg" := PyStr "OK" ]})
              (PyStr "200") (PyStr "OK") w0) as [H _];
    [reflexivity | reflexivity |].
  apply H; discriminate.
Defined.

(** A body that is a JSON list. *)
Lemma body_not_a_dictionary_at_list :
  (_get (E_const (PyList [])) me "account/info" (PyDict ∅) w0).2 = inl TypeError.
Proof.
  apply (body_not_a_dictionary (E_const (PyList [])) me "account/info" ∅
           (PyList []) w0); [discriminate | reflexivity].
Defined.

(** [0] for [params] is an empty dictionary; a string has no [update]. *)
Lemma get_params_edge_cases_at_samples :
  _get E_ok me "account/info" (PyInt 0) w0 =
    _get E_ok me "account/info" (PyDict ∅) w0 /\
  _get E_ok me "account/info" (PyStr "file=x") w0 = (w0, inl AttributeError).
Proof.
  split.
  - apply (proj1 (get_params_edge_cases E_ok me "account/info" (PyInt 0) w0)).
    reflexivity.
  - apply (proj2 (get_params_edge_cases E_ok me "account/info" (PyStr "file=x") w0));
      [reflexivity | discriminate].
Defined.

(** [account_info] against a service that is down. *)
Lemma transport_error_propagates_at_account_info :
  (call E_down me Account_info w0).2 =
    inl (RequestException "connection refused").
Proof.
  apply (transport_error_propagates E_down me Account_info
           (RequestException "connection refused") w0);
    [reflexivity | discriminate].
Defined.

Lemma only_upload_file_touches_files_at_list_folder :
  open_files (call E_ok me (List_folder PyNone) w0).1 = [].
Proof.
  apply (only_upload_file_touches_files E_ok me (List_folder PyNone) w0).
  discriminate.
Defined.

Lemma operations_request_their_endpoint_at_splash_image :
  exists q t,
    new_events (call E_ok (__init__ (PyStr "my-login") (PyStr "my-key"))
                  (Splash_image (PyStr "TJNMUk2hnYs"))) w0 =
      EvGet "https://api.openload.co/1/file/getsplash" q :: t /\
    sent_params t = [].
Proof.
  apply (operations_request_their_endpoint E_ok (PyStr "my-login")
           (PyStr "my-key") (Splash_image (PyStr "TJNMUk2hnYs"))
           "file/getsplash" w0).
  reflexivity.
Defined.

(** [sha1=None] is the call without [sha1]. *)
Lemma empty_keyword_is_same_call_at_sha1 :
  upload_link E_ok me {[ "sha1" := PyNone ]} w0 =
    upload_link E_ok me (delete "sha1" {[ "sha1" := PyNone ]}) w0.
Proof.
  destruct (empty_keyword_is_same_call E_ok me PyNone "movie.mp4"
              {[ "sha1" := PyNone ]} "sha1" PyNone w0) as (H & _);
    [reflexivity | reflexivity |].
  apply H. repeat constructor.
Defined.

(** Folder [0] is the Home folder. *)
Lemma empty_argument_is_same_call_at_zero :
  list_folder E_ok me (PyInt 0) w0 = list_folder E_ok me PyNone w0.
Proof.
  apply (empty_argument_is_same_call E_ok me PyNone PyNone (PyInt 0) w0).
  reflexivity.
Defined.

Lemma keyword_value_is_sent_at_folder :
  exists q,
    sent (upload_link E_ok me {[ "folder" := PyStr "4258" ]}) w0 = [q] /\
    q !! "folder" = Some (PyStr "4258").
Proof.
  destruct (keyword_value_is_sent E_ok me PyNone "movie.mp4"
              {[ "folder" := PyStr "4258" ]} "folder" (PyStr "4258") w0)
    as (H & _); [reflexivity | reflexivity | discriminate | discriminate |].
  apply H. repeat constructor.
Defined.

(** A keyword [url] replaces the URL given by position. *)
Lemma remote_upload_url_at_override :
  (exists q,
     sent (remote_upload E_ok me (PyStr "http://a/file") ∅) w0 = [q] /\
     q !! "url" = Some (PyStr "http://a/file")) /\
  (exists q,
     sent (remote_upload E_ok me (PyStr "http://a/file")
             {[ "url" := PyStr "http://b/file" ]}) w0 = [q] /\
     q !! "url" = Some (PyStr "http://b/file")).
Proof.
  split.
  - apply (proj1 (remote_upload_url E_ok me (PyStr "http://a/file") ∅ w0)).
    left. reflexivity.
  - apply (proj2 (remote_upload_url E_ok me (PyStr "http://a/file")
                    {[ "url" := PyStr "http://b/file" ]} w0)
             (PyStr "http://b/file")); reflexivity.
Defined.

Lemma folder_operations_query_at_folder :
  sent (list_folder E_ok me (PyStr "4258")) w0 =
    [<["folder" := PyStr "4258"]> (credentials me)].
Proof.
  apply (proj2 (proj2 (proj2 (folder_operations_query E_ok me w0)))
           (PyStr "4258")).
  reflexivity.
Defined.

(** An answer to [upload_link] that grants no URL. *)
Lemma upload_file_without_url_at_empty_result :
  (upload_file (E_const (PyDict (envelope 200 "OK" (PyDict ∅)))) me
     "movie.mp4" ∅ w0).2 = inl (KeyError "url").
Proof.
  edestruct (upload_file_without_url
               (E_const (PyDict (envelope 200 "OK" (PyDict ∅)))) me
               "movie.mp4" ∅ w0) as (_ & H & _);
    [vm_compute; reflexivity | reflexivity |].
  by rewrite H.
Defined.


Lemma upload_file_post_error_propagates_at_sample :
  (upload_file E_post_down me "movie.mp4" ∅ w0).2 =
    inl (RequestException "connection reset").
Proof.
  edestruct (upload_file_post_error_propagates E_post_down me "movie.mp4" ∅ w0)
    as (H & _);
    [vm_compute; reflexivity | reflexivity | reflexivity | reflexivity |].
  by rewrite H.
Defined.

(** A refused upload is raised as [PermissionDeniedException]. *)
Lemma upload_file_classifies_post_answer_at_403 :
  (upload_file E_post_denied me "movie.mp4" ∅ w0).2 =
    inl (PermissionDeniedException (PyStr "Permission denied")).
Proof.
  edestruct (upload_file_classifies_post_answer E_post_denied me "movie.mp4" ∅
               denied w0) as (H & _);
    [vm_compute; reflexivity | reflexivity | reflexivity | reflexivity
    | reflexivity | reflexivity |].
  apply H. constructor.
Defined.
